(** * The ARM port of the foreign-function bridge: foreign_globals_arm.cpp

    The file under study, [src/hotspot/cpu/arm/foreign_globals_arm.cpp],
    holds the ARM definitions of six architecture hooks:

      - [ForeignGlobals::parse_abi_descriptor]
      - [ForeignGlobals::vmstorage_to_vmreg]
      - [RegSpiller::pd_reg_size]
      - [RegSpiller::pd_store_reg]
      - [RegSpiller::pd_load_reg]
      - [ArgumentShuffle::pd_generate]

    Each body is a call of the [Unimplemented()] macro, followed, where the
    C++ return type asks for one, by a [return] of a sentinel value.  The
    development embeds the six bodies as they are written, statement for
    statement, in a small outcome monad, and settles what the specification
    says of the descriptor parser, the register spiller and the shuffle
    planner against them. *)

From Stdlib Require Import ZArith List String Lia Bool.
Import ListNotations.
Local Open Scope Z_scope.
Local Open Scope string_scope.

(** ** Outcomes of a call *)

(** What the VM's error reporter is handed when it stops the VM: the call
    site and a message. *)
Record VMError : Type := mkVMError {
  error_file : string;
  error_line : Z;
  error_message : string
}.

(** The error kinds of the specification (section 7), the failures it has
    returned to the immediate caller. *)
Inductive ErrorKind : Type :=
| UnsupportedType
| InconsistentAggregate
| DuplicateSpill
| ClobberedScratch
| WidthMismatch.

(** A call either returns a value to its caller, or reports one of the
    specification's errors to its caller, or stops the VM. *)
Inductive outcome (A : Type) : Type :=
| Returned (a : A)
| Signalled (e : ErrorKind)
| Aborted (report : VMError).

Arguments Returned {A} a.
Arguments Signalled {A} e.
Arguments Aborted {A} report.

(** Sequencing of statements: the statements after one that did not return
    are not run. *)
Definition bind {A B : Type} (c : outcome A) (k : A -> outcome B) : outcome B :=
  match c with
  | Returned a => k a
  | Signalled e => Signalled e
  | Aborted report => Aborted report
  end.

Notation "x <- c1 ;; c2" := (bind c1 (fun x => c2))
  (at level 61, c1 at next level, right associativity).
Notation "c1 ;; c2" := (bind c1 (fun _ => c2))
  (at level 61, right associativity).

Definition returned {A : Type} (o : outcome A) : bool :=
  match o with
  | Returned _ => true
  | _ => false
  end.

Definition failed {A : Type} (o : outcome A) : bool := negb (returned o).

(** ** Data the source only names

    The headers the file includes ([code/vmreg.hpp],
    [prims/foreign_globals.hpp], [utilities/debug.hpp]) are not part of the
    sources at hand, and [MacroAssembler] is only forward-declared.  The
    types below give them the shape the specification's data model
    (section 3) describes. *)

Inductive StorageKind : Type :=
| GeneralRegister
| FloatRegister
| VectorRegister
| StackSlot.

Record StorageLocation : Type := mkStorageLocation {
  kind : StorageKind;
  index_or_offset : Z;
  width : Z
}.

(** Modelled from the spec: [VMReg] and [VMRegImpl::Bad()] are declared in
    code/vmreg.hpp, which is not under src/.  A [VMReg] names a storage
    location (section 3); [VMRegImpl_Bad] is the handle that names none. *)
Inductive VMReg : Type :=
| VMRegImpl_Bad
| VMReg_at (loc : StorageLocation).

Inductive AbstractTypeTag : Type :=
| int32
| float64
| pointer
| struct_by_value (size alignment : Z).

(** Modelled from the spec: [jobject] is JNI's opaque handle type, declared
    outside src/.  The handle [jabi] stands for what it refers to, the
    externally supplied signature description of sections 4.1 and 6: the
    type tags in declaration order and the identifier of the calling
    convention. *)
Record jobject : Type := mkjobject {
  signature : list AbstractTypeTag;
  calling_convention : string
}.

(** Modelled from the spec: [ABIDescriptor] is declared in
    prims/foreign_globals.hpp, which is not under src/; the attributes are
    those of section 3. *)
Record ABIDescriptor : Type := mkABIDescriptor {
  argument_locations : list StorageLocation;
  return_location : option StorageLocation;
  volatile_registers : list VMReg;
  stack_alignment : Z
}.

(** The C++ expression [{}] at type [ABIDescriptor]: every member
    value-initialised. *)
Definition ABIDescriptor_value_initialized : ABIDescriptor :=
  {| argument_locations := [];
     return_location := None;
     volatile_registers := [];
     stack_alignment := 0 |}.

(** Modelled from the spec: [class MacroAssembler;] is only forward-declared
    in the file.  It stands for what the planner and the spiller hand to the
    code emitter (section 6): the primitive operations described so far, the
    steps of a MovePlan and the stores and loads of a SpillPlan. *)
Inductive Primitive : Type :=
| move_op (source destination : VMReg) (via_spill_slot : bool)
| store_op (offset : Z) (reg : VMReg)
| load_op (offset : Z) (reg : VMReg).

Definition MacroAssembler : Type := list Primitive.

(** Modelled from the spec: [ArgumentShuffle] is declared in
    prims/foreign_globals.hpp, which is not under src/.  The object
    [pd_generate] is called on holds the shuffle request of section 4.3. *)
Record ArgumentShuffle : Type := mkArgumentShuffle {
  sources : list VMReg;
  destinations : list VMReg
}.


(** ** The six functions of foreign_globals_arm.cpp *)

(** [__FILE__] *)
Definition this_file : string := "src/hotspot/cpu/arm/foreign_globals_arm.cpp".

Section foreign_globals_arm.

(** The macro [Unimplemented()] comes from utilities/debug.hpp, which is not
    under src/: the bodies take it as a parameter, applied to [__FILE__] and
    [__LINE__] of the call. *)
Variable Unimplemented : string -> Z -> outcome unit.

(** const ABIDescriptor ForeignGlobals::parse_abi_descriptor(jobject jabi) *)
Definition parse_abi_descriptor (jabi : jobject) : outcome ABIDescriptor :=
  Unimplemented this_file 32 ;;
  Returned ABIDescriptor_value_initialized.

(** VMReg ForeignGlobals::vmstorage_to_vmreg(int type, int index) *)
Definition vmstorage_to_vmreg (type index : Z) : outcome VMReg :=
  Unimplemented this_file 37 ;;
  Returned VMRegImpl_Bad.

(** int RegSpiller::pd_reg_size(VMReg reg) *)
Definition pd_reg_size (reg : VMReg) : outcome Z :=
  Unimplemented this_file 42 ;;
  Returned (-1).

(** void RegSpiller::pd_store_reg(MacroAssembler* masm, int offset, VMReg reg)

    The assembler [masm] points to is passed in and handed back as the body
    leaves it, next to the outcome of the body's statements. *)
Definition pd_store_reg (masm : MacroAssembler) (offset : Z) (reg : VMReg)
  : outcome unit * MacroAssembler :=
  (Unimplemented this_file 47, masm).

(** void RegSpiller::pd_load_reg(MacroAssembler* masm, int offset, VMReg reg) *)
Definition pd_load_reg (masm : MacroAssembler) (offset : Z) (reg : VMReg)
  : outcome unit * MacroAssembler :=
  (Unimplemented this_file 51, masm).

(** void ArgumentShuffle::pd_generate(MacroAssembler* masm, VMReg tmp,
                                      int in_stk_bias, int out_stk_bias) const *)
Definition pd_generate (this : ArgumentShuffle) (masm : MacroAssembler)
  (tmp : VMReg) (in_stk_bias out_stk_bias : Z)
  : outcome unit * MacroAssembler :=
  (Unimplemented this_file 55, masm).

End foreign_globals_arm.

(** The report of an [Unimplemented()] call at [line] of this file. *)
Definition unimplemented_at (line : Z) : VMError :=
  {| error_file := this_file;
     error_line := line;
     error_message := "Unimplemented()" |}.

(** Modelled from the spec: the macro [Unimplemented()] of
    utilities/debug.hpp, which is not under src/.  The specification calls
    the functions of this file stubbed, unimplemented hooks: a call reports
    its site and stops the VM, it does not return. *)
Definition vm_Unimplemented (file : string) (line : Z) : outcome unit :=
  Aborted {| error_file := file;
             error_line := line;
             error_message := "Unimplemented()" |}.

(** ** Predicates and measures the properties are stated with *)

(** A call stops first thing at the [Unimplemented()] of [line]: its outcome
    is the VM stopping with the report of that call site, it hands no value
    to its caller, and whatever statements follow the macro's call, the
    outcome is the same. *)
Definition aborts_first {A : Type} (line : Z) (o : outcome A) : Prop :=
  o = Aborted (unimplemented_at line)
  /\ (forall a : A, o <> Returned a)
  /\ (forall k : unit -> outcome A, o = (x <- vm_Unimplemented this_file line ;; k x)).

Definition StorageKind_eqb (k1 k2 : StorageKind) : bool :=
  match k1, k2 with
  | GeneralRegister, GeneralRegister
  | FloatRegister, FloatRegister
  | VectorRegister, VectorRegister
  | StackSlot, StackSlot => true
  | _, _ => false
  end.

Definition StorageLocation_eqb (l1 l2 : StorageLocation) : bool :=
  StorageKind_eqb (kind l1) (kind l2)
  && Z.eqb (index_or_offset l1) (index_or_offset l2)
  && Z.eqb (width l1) (width l2).

Definition VMReg_eqb (r1 r2 : VMReg) : bool :=
  match r1, r2 with
  | VMRegImpl_Bad, VMRegImpl_Bad => true
  | VMReg_at l1, VMReg_at l2 => StorageLocation_eqb l1 l2
  | _, _ => false
  end.

(** Only register-resident locations are spillable (section 4.2). *)
Definition is_stack_slot (reg : VMReg) : bool :=
  match reg with
  | VMReg_at loc => StorageKind_eqb (kind loc) StackSlot
  | VMRegImpl_Bad => false
  end.

(** [reg] already has a save among the operations described so far. *)
Definition already_spilled (reg : VMReg) (masm : MacroAssembler) : bool :=
  existsb (fun p => match p with
                    | store_op _ r => VMReg_eqb r reg
                    | _ => false
                    end) masm.

(** The steps of [masm] that move [src] to [dst]. *)
Definition moves_between (src dst : VMReg) (masm : MacroAssembler) : list Primitive :=
  filter (fun p => match p with
                   | move_op s d _ => VMReg_eqb s src && VMReg_eqb d dst
                   | _ => false
                   end) masm.

(** Section 3: a location's [index_or_offset] is non-negative and its [width]
    a power of two. *)
Definition well_formed (loc : StorageLocation) : Prop :=
  0 <= index_or_offset loc /\ exists k : nat, width loc = 2 ^ Z.of_nat k.

(** A width rounded up to an alignment. *)
Definition round_up (n alignment : Z) : Z :=
  (n + alignment - 1) / alignment * alignment.

(** Section 4.2, in its words: the scratch area is "sized to the sum of each
    location's width (rounded up to natural alignment per entry)"; the natural
    alignment of an entry is its own width. *)
Fixpoint spill_area_size (widths : list Z) : Z :=
  match widths with
  | [] => 0
  | w :: rest => round_up w w + spill_area_size rest
  end.


(** A size the sum-of-widths contract can ask for: the size of the scratch
    area of some well-formed locations. *)
Definition valid_spill_size (size : Z) : Prop :=
  exists locations : list StorageLocation,
    Forall well_formed locations /\ size = spill_area_size (map width locations).







(** Modelled from the spec: the per-architecture constant tables of sections
    1 and 6, "an external configuration input" that is not under src/.  Of
    the tables, the numbers of argument-passing registers per class and the
    width of a float register. *)
Record ArchitectureConfiguration : Type := mkArchitectureConfiguration {
  general_argument_registers : nat;
  float_argument_registers : nat;
  float_register_width : Z
}.

(** Section 8, Scenario: "an architecture with 2 general registers and 1
    float register of sufficient width", sufficient for a float64. *)
Definition scenario_architecture (architecture : ArchitectureConfiguration) : Prop :=
  general_argument_registers architecture = 2%nat
  /\ float_argument_registers architecture = 1%nat
  /\ 8 <= float_register_width architecture.

(** Section 4.1's [parse] as this port provides it.  The tables of the
    architecture are fixed data outside the call: the hook is handed the
    description [jabi] alone (line 31) and has no parameter for them. *)
Definition parse (Unimplemented : string -> Z -> outcome unit)
  (architecture : ArchitectureConfiguration)
  (s : list AbstractTypeTag) (c : string) : outcome ABIDescriptor :=
  parse_abi_descriptor Unimplemented {| signature := s; calling_convention := c |}.

Definition kind_and_index (loc : StorageLocation) : StorageKind * Z :=
  (kind loc, index_or_offset loc).

(** ** Inputs of the scenarios *)

Definition general_register (index : Z) : VMReg :=
  VMReg_at {| kind := GeneralRegister; index_or_offset := index; width := 4 |}.

Definition R1 : VMReg := general_register 1.
Definition R2 : VMReg := general_register 2.
Definition R12 : VMReg := general_register 12.

(** Section 8, Scenario: the signature (int32, float64, int32). *)
Definition scenario_abi : jobject :=
  {| signature := [int32; float64; int32]; calling_convention := "default" |}.

Definition two_general_one_float : ArchitectureConfiguration :=
  {| general_argument_registers := 2;
     float_argument_registers := 1;
     float_register_width := 8 |}.



Definition no_argument_abi : jobject :=
  {| signature := []; calling_convention := "default" |}.

(** Section 8, Cycle handling: sources [R1,R2], destinations [R2,R1]. *)
Definition swap (a b : VMReg) : ArgumentShuffle :=
  {| sources := [a; b]; destinations := [b; a] |}.

Definition self_move : ArgumentShuffle :=
  {| sources := [R1]; destinations := [R1] |}.

Definition move_into_R2 : ArgumentShuffle :=
  {| sources := [R1]; destinations := [R2] |}.

(** ** Endings of calls, and straight-line callers of the emitting hooks *)

(** Two calls end the same way: both return to their callers, or both signal
    the same error, or both stop the VM with the same report. *)
Definition same_ending {A B : Type} (o : outcome A) (o' : outcome B) : Prop :=
  match o, o' with
  | Returned _, Returned _ => True
  | Signalled e, Signalled e' => e = e'
  | Aborted report, Aborted report' => report = report'
  | _, _ => False
  end.

(** A call of one of the three hooks that are handed the assembler, with the
    arguments of the call. *)
Inductive emitter_call : Type :=
| call_pd_store_reg (offset : Z) (reg : VMReg)
| call_pd_load_reg (offset : Z) (reg : VMReg)
| call_pd_generate (this : ArgumentShuffle) (tmp : VMReg)
    (in_stk_bias out_stk_bias : Z).

(** The line of the [Unimplemented()] in the hook a call enters. *)
Definition call_line (c : emitter_call) : Z :=
  match c with
  | call_pd_store_reg _ _ => 47
  | call_pd_load_reg _ _ => 51
  | call_pd_generate _ _ _ _ => 55
  end.

Definition run_call (Unimplemented : string -> Z -> outcome unit)
  (c : emitter_call) (masm : MacroAssembler) : outcome unit * MacroAssembler :=
  match c with
  | call_pd_store_reg offset reg => pd_store_reg Unimplemented masm offset reg
  | call_pd_load_reg offset reg => pd_load_reg Unimplemented masm offset reg
  | call_pd_generate this tmp in_stk_bias out_stk_bias =>
      pd_generate Unimplemented this masm tmp in_stk_bias out_stk_bias
  end.

(** A caller's statements [call1; call2; ...] on one assembler: each call
    works on the assembler as the call before left it, and the calls after
    one that did not return are not made. *)
Fixpoint run_calls (Unimplemented : string -> Z -> outcome unit)
  (calls : list emitter_call) (masm : MacroAssembler)
  : outcome unit * MacroAssembler :=
  match calls with
  | [] => (Returned tt, masm)
  | c :: rest =>
      match run_call Unimplemented c masm with
      | (Returned _, masm') => run_calls Unimplemented rest masm'
      | (ending, masm') => (ending, masm')
      end
  end.

(** ** The outcome monad and the macro *)

Lemma Aborted_is_not_Returned {A : Type} (report : VMError) (a : A) :
  Aborted report <> Returned a.
Proof. intro H. discriminate H. Qed.

Lemma bind_Returned {A B : Type} (a : A) (k : A -> outcome B) :
  (x <- Returned a ;; k x) = k a.
Proof. reflexivity. Qed.

Lemma bind_Aborted {A B : Type} (report : VMError) (k : A -> outcome B) :
  (x <- Aborted report ;; k x) = Aborted report.
Proof. reflexivity. Qed.

(** The statements after a call of the macro are dead: the sequence stops
    with the report of the call. *)
Lemma vm_Unimplemented_stops {A : Type} (line : Z) (k : unit -> outcome A) :
  (x <- vm_Unimplemented this_file line ;; k x) = Aborted (unimplemented_at line).
Proof. unfold vm_Unimplemented, unimplemented_at. apply bind_Aborted. Qed.

Lemma aborts_first_sequence {A : Type} (line : Z) (k : unit -> outcome A) :
  aborts_first line (x <- vm_Unimplemented this_file line ;; k x).
Proof.
  unfold aborts_first. rewrite vm_Unimplemented_stops.
  split; [reflexivity | split].
  - intros a. apply Aborted_is_not_Returned.
  - intros k'. symmetry. apply vm_Unimplemented_stops.
Qed.

Lemma aborts_first_call (line : Z) :
  aborts_first line (vm_Unimplemented this_file line).
Proof.
  unfold aborts_first. split; [reflexivity | split].
  - intros a. apply Aborted_is_not_Returned.
  - intros k. symmetry. apply vm_Unimplemented_stops.
Qed.

Lemma failed_Aborted {A : Type} (report : VMError) :
  failed (@Aborted A report) = true.
Proof. reflexivity. Qed.

(** ** The six functions, linked against the macro *)

Lemma parse_abi_descriptor_stops (jabi : jobject) :
  parse_abi_descriptor vm_Unimplemented jabi = Aborted (unimplemented_at 32).
Proof. unfold parse_abi_descriptor. apply vm_Unimplemented_stops. Qed.

Lemma vmstorage_to_vmreg_stops (type index : Z) :
  vmstorage_to_vmreg vm_Unimplemented type index = Aborted (unimplemented_at 37).
Proof. unfold vmstorage_to_vmreg. apply vm_Unimplemented_stops. Qed.

Lemma pd_reg_size_stops (reg : VMReg) :
  pd_reg_size vm_Unimplemented reg = Aborted (unimplemented_at 42).
Proof. unfold pd_reg_size. apply vm_Unimplemented_stops. Qed.

Lemma pd_store_reg_stops (masm : MacroAssembler) (offset : Z) (reg : VMReg) :
  pd_store_reg vm_Unimplemented masm offset reg = (Aborted (unimplemented_at 47), masm).
Proof. reflexivity. Qed.

Lemma pd_load_reg_stops (masm : MacroAssembler) (offset : Z) (reg : VMReg) :
  pd_load_reg vm_Unimplemented masm offset reg = (Aborted (unimplemented_at 51), masm).
Proof. reflexivity. Qed.

Lemma pd_generate_stops (this : ArgumentShuffle) (masm : MacroAssembler)
  (tmp : VMReg) (in_stk_bias out_stk_bias : Z) :
  pd_generate vm_Unimplemented this masm tmp in_stk_bias out_stk_bias
  = (Aborted (unimplemented_at 55), masm).
Proof. reflexivity. Qed.

Lemma parse_abi_descriptor_yields_nothing (jabi : jobject) (d : ABIDescriptor) :
  parse_abi_descriptor vm_Unimplemented jabi <> Returned d.
Proof. rewrite parse_abi_descriptor_stops. apply Aborted_is_not_Returned. Qed.

Lemma pd_generate_yields_nothing (this : ArgumentShuffle) (masm plan : MacroAssembler)
  (tmp : VMReg) (in_stk_bias out_stk_bias : Z) :
  pd_generate vm_Unimplemented this masm tmp in_stk_bias out_stk_bias
  <> (Returned tt, plan).
Proof. rewrite pd_generate_stops. intros H. inversion H. Qed.

(** ** Sizes of scratch areas *)

Lemma round_up_nonnegative (w : Z) : 0 < w -> 0 <= round_up w w.
Proof.
  intros Hw. unfold round_up.
  apply Z.mul_nonneg_nonneg; [ | lia].
  apply Z.div_pos; lia.
Qed.

Lemma well_formed_width_positive (loc : StorageLocation) :
  well_formed loc -> 0 < width loc.
Proof.
  intros [_ [k Hk]]. rewrite Hk.
  apply Z.pow_pos_nonneg; lia.
Qed.

Lemma spill_area_size_nonnegative (locations : list StorageLocation) :
  Forall well_formed locations -> 0 <= spill_area_size (map width locations).
Proof.
  induction 1 as [ | loc rest Hloc _ IH]; simpl.
  - lia.
  - pose proof (round_up_nonnegative (width loc) (well_formed_width_positive loc Hloc)).
    lia.
Qed.

Lemma valid_spill_size_nonnegative (size : Z) : valid_spill_size size -> 0 <= size.
Proof.
  intros [locations [Hwf ->]]. now apply spill_area_size_nonnegative.
Qed.

(** * C1: every hook stops at its Unimplemented() *)

(** C1.  For every input, each of the six functions of the file
    (parse_abi_descriptor, vmstorage_to_vmreg, pd_reg_size, pd_store_reg,
    pd_load_reg, pd_generate) reaches the VM-stopping [Unimplemented()] of its
    first line before it computes anything: the outcome is the report of that
    call site, no value is returned to the caller, the statements after the
    call have no bearing on the outcome, and the three functions that are
    handed an assembler leave it as they found it. *)
Theorem every_hook_stops_at_Unimplemented :
  (forall jabi, aborts_first 32 (parse_abi_descriptor vm_Unimplemented jabi))
  /\ (forall type index,
         aborts_first 37 (vmstorage_to_vmreg vm_Unimplemented type index))
  /\ (forall reg, aborts_first 42 (pd_reg_size vm_Unimplemented reg))
  /\ (forall masm offset reg,
         aborts_first 47 (fst (pd_store_reg vm_Unimplemented masm offset reg))
         /\ snd (pd_store_reg vm_Unimplemented masm offset reg) = masm)
  /\ (forall masm offset reg,
         aborts_first 51 (fst (pd_load_reg vm_Unimplemented masm offset reg))
         /\ snd (pd_load_reg vm_Unimplemented masm offset reg) = masm)
  /\ (forall this masm tmp in_stk_bias out_stk_bias,
         aborts_first 55
           (fst (pd_generate vm_Unimplemented this masm tmp in_stk_bias out_stk_bias))
         /\ snd (pd_generate vm_Unimplemented this masm tmp in_stk_bias out_stk_bias)
            = masm).
Proof.
  repeat match goal with |- _ /\ _ => split end; intros.
  - unfold parse_abi_descriptor. apply aborts_first_sequence.
  - unfold vmstorage_to_vmreg. apply aborts_first_sequence.
  - unfold pd_reg_size. apply aborts_first_sequence.
  - rewrite pd_store_reg_stops; simpl. split; [apply aborts_first_call | reflexivity].
  - rewrite pd_load_reg_stops; simpl. split; [apply aborts_first_call | reflexivity].
  - rewrite pd_generate_stops; simpl. split; [apply aborts_first_call | reflexivity].
Qed.

(** * C2, C3, C9: the descriptor parser *)



(** C3, as stated, fails on the zero-argument signature: no descriptor with
    an empty [argument_locations] is produced for it, since none is produced
    at all. *)
Lemma zero_arguments_yield_no_descriptor :
  ~ exists d : ABIDescriptor,
      parse_abi_descriptor vm_Unimplemented no_argument_abi = Returned d
      /\ List.length (argument_locations d) = List.length (signature no_argument_abi).
Proof.
  intros [d [Hparse _]]. revert Hparse.
  apply parse_abi_descriptor_yields_nothing.
Qed.

(** C3, amended.  For every signature, parse_abi_descriptor stops at
    [Unimplemented()] and produces no ABIDescriptor: there is no
    [argument_locations] sequence, of the signature's length or of any
    other, and none for a zero-argument signature either. *)
Theorem parse_produces_no_argument_locations (jabi : jobject) :
  parse_abi_descriptor vm_Unimplemented jabi = Aborted (unimplemented_at 32)
  /\ ~ (exists d : ABIDescriptor,
          parse_abi_descriptor vm_Unimplemented jabi = Returned d
          /\ List.length (argument_locations d) = List.length (signature jabi)).
Proof.
  split.
  - apply parse_abi_descriptor_stops.
  - intros [d [Hparse Hlength]].
    rewrite parse_abi_descriptor_stops in Hparse. discriminate Hparse.
Qed.

(** C9, as stated, fails: on an architecture with two general-purpose
    argument registers and one float register wide enough for a float64, the
    parser applied to the signature (int32, float64, int32) does not return
    the locations [GeneralRegister(0), FloatRegister(0), StackSlot(0)]. *)
Lemma scenario_locations_are_not_returned :
  scenario_architecture two_general_one_float
  /\ ~ exists d : ABIDescriptor,
        parse vm_Unimplemented two_general_one_float
              [int32; float64; int32] "default" = Returned d
        /\ map kind_and_index (argument_locations d)
           = [(GeneralRegister, 0); (FloatRegister, 0); (StackSlot, 0)].
Proof.
  split.
  - unfold scenario_architecture, two_general_one_float. simpl.
    repeat split. lia.
  - intros [d [Hparse Hlocations]].
    unfold parse in Hparse.
    rewrite parse_abi_descriptor_stops in Hparse.
    discriminate Hparse.
Qed.

(** C9, amended.  On an architecture configuration with two general-purpose
    argument registers and one float register of sufficient width, parse
    applied to the signature (int32, float64, int32) returns no
    [argument_locations]: it stops at the [Unimplemented()] of line 32
    before any register or stack slot is assigned. *)
Theorem scenario_signature_is_not_parsed
  (architecture : ArchitectureConfiguration) (convention : string)
  (two_general_one_float_register : scenario_architecture architecture) :
  parse vm_Unimplemented architecture [int32; float64; int32] convention
  = Aborted (unimplemented_at 32)
  /\ forall d : ABIDescriptor,
       parse vm_Unimplemented architecture [int32; float64; int32] convention
       <> Returned d.
Proof.
  unfold parse. split.
  - apply parse_abi_descriptor_stops.
  - intros d. apply parse_abi_descriptor_yields_nothing.
Qed.

Lemma scenario_signature_witness :
  scenario_architecture two_general_one_float
  /\ parse vm_Unimplemented two_general_one_float [int32; float64; int32] "default"
     = Aborted (unimplemented_at 32).
Proof.
  assert (Harchitecture : scenario_architecture two_general_one_float).
  { unfold scenario_architecture, two_general_one_float. simpl.
    repeat split. lia. }
  split.
  - exact Harchitecture.
  - apply (scenario_signature_is_not_parsed two_general_one_float "default"
             Harchitecture).
Defined.

(** * C4, C5, C8: the shuffle planner *)

(** C4, as stated, fails: for sources [R1,R2] and destinations [R2,R1], with
    R12 as scratch, pd_generate does not produce a three-step plan. *)
Lemma swap_gets_no_three_step_plan :
  ~ exists plan : MacroAssembler,
      pd_generate vm_Unimplemented (swap R1 R2) [] R12 0 0 = (Returned tt, plan)
      /\ List.length plan = 3%nat.
Proof.
  intros [plan [Hgenerate _]].
  exact (pd_generate_yields_nothing _ _ _ _ _ _ Hgenerate).
Qed.

(** C4, amended.  For a two-element cyclic input, sources [a,b] and
    destinations [b,a], pd_generate stops at [Unimplemented()] with nothing
    handed to the emitter: it produces no MovePlan, neither the three-step
    one through the scratch register nor a two-step one that overwrites a
    value before it is read. *)
Theorem swap_is_not_planned (a b tmp : VMReg) (masm : MacroAssembler)
  (in_stk_bias out_stk_bias : Z) :
  pd_generate vm_Unimplemented (swap a b) masm tmp in_stk_bias out_stk_bias
  = (Aborted (unimplemented_at 55), masm)
  /\ ~ (exists plan : MacroAssembler,
          pd_generate vm_Unimplemented (swap a b) masm tmp in_stk_bias out_stk_bias
          = (Returned tt, plan)
          /\ (List.length plan = 3%nat \/ List.length plan = 2%nat)).
Proof.
  split.
  - apply pd_generate_stops.
  - intros [plan [Hgenerate _]].
    rewrite pd_generate_stops in Hgenerate.
    inversion Hgenerate.
Qed.

(** C5, as stated, fails: for the pair whose source and destination are both
    R1, no MovePlan is delivered from which the self-move would be elided. *)
Lemma self_move_gets_no_plan :
  ~ exists plan : MacroAssembler,
      pd_generate vm_Unimplemented self_move [] R12 0 0 = (Returned tt, plan)
      /\ moves_between R1 R1 plan = [].
Proof.
  intros [plan [Hgenerate _]]. revert Hgenerate.
  apply pd_generate_yields_nothing.
Qed.

(** C5, amended.  For every pair of a shuffle request whose source and
    destination are the same location, zero moves are emitted for the pair,
    but not by eliding it from a MovePlan: pd_generate stops at the
    [Unimplemented()] of line 55 with nothing handed to the emitter, and no
    MovePlan is delivered. *)
Theorem self_move_pair_is_not_planned (this : ArgumentShuffle)
  (masm : MacroAssembler) (tmp : VMReg) (in_stk_bias out_stk_bias : Z)
  (i : nat) (loc : VMReg)
  (source_i : nth_error (sources this) i = Some loc)
  (destination_i : nth_error (destinations this) i = Some loc) :
  pd_generate vm_Unimplemented this masm tmp in_stk_bias out_stk_bias
  = (Aborted (unimplemented_at 55), masm)
  /\ moves_between loc loc
       (snd (pd_generate vm_Unimplemented this masm tmp in_stk_bias out_stk_bias))
     = moves_between loc loc masm
  /\ ~ (exists plan : MacroAssembler,
          pd_generate vm_Unimplemented this masm tmp in_stk_bias out_stk_bias
          = (Returned tt, plan)).
Proof.
  rewrite pd_generate_stops. simpl. repeat split.
  intros [plan Hgenerate]. inversion Hgenerate.
Qed.

Lemma self_move_pair_witness :
  pd_generate vm_Unimplemented self_move [] R12 0 0
  = (Aborted (unimplemented_at 55), [])
  /\ moves_between R1 R1 (snd (pd_generate vm_Unimplemented self_move [] R12 0 0))
     = [].
Proof.
  destruct (self_move_pair_is_not_planned self_move [] R12 0 0 0%nat R1
              eq_refl eq_refl) as (Hstop & Hmoves & _).
  split.
  - exact Hstop.
  - exact Hmoves.
Defined.

(** C8, as stated, fails: with R2 both the scratch register and a
    destination, pd_generate does not signal ClobberedScratch. *)
Lemma clobbered_scratch_is_not_signalled :
  In R2 (destinations move_into_R2)
  /\ fst (pd_generate vm_Unimplemented move_into_R2 [] R2 0 0)
     <> Signalled ClobberedScratch.
Proof.
  split.
  - simpl. left. reflexivity.
  - rewrite pd_generate_stops. simpl. intros H. discriminate H.
Qed.

(** C8, amended.  Whenever the scratch register appears among the
    destinations, pd_generate fails, by stopping the VM at [Unimplemented()]
    and not by a ClobberedScratch error; it fails atomically: the emitter is
    handed nothing, so no partial MovePlan is exposed. *)
Theorem scratch_among_destinations_stops (this : ArgumentShuffle)
  (masm : MacroAssembler) (tmp : VMReg) (in_stk_bias out_stk_bias : Z)
  (clobbered : In tmp (destinations this)) :
  pd_generate vm_Unimplemented this masm tmp in_stk_bias out_stk_bias
  = (Aborted (unimplemented_at 55), masm)
  /\ failed (fst (pd_generate vm_Unimplemented this masm tmp in_stk_bias out_stk_bias))
     = true.
Proof.
  rewrite pd_generate_stops. split.
  - reflexivity.
  - apply failed_Aborted.
Qed.

Lemma scratch_among_destinations_witness :
  In R2 (destinations move_into_R2)
  /\ pd_generate vm_Unimplemented move_into_R2 [] R2 0 0
     = (Aborted (unimplemented_at 55), []).
Proof.
  assert (clobbered : In R2 (destinations move_into_R2)).
  { simpl. left. reflexivity. }
  split.
  - exact clobbered.
  - apply (scratch_among_destinations_stops move_into_R2 [] R2 0 0 clobbered).
Defined.

(** * C6, C7: the register spiller *)












(** C7, as stated, fails: the general register R1 is no stack slot and is
    not yet in the (empty) plan, and yet the spiller fails when asked to
    spill it; planning a spill of the set holding R1 alone does not succeed,
    neither the width query nor the save returns. *)
Lemma fresh_register_is_refused :
  already_spilled R1 [] = false
  /\ is_stack_slot R1 = false
  /\ ~ (failed (fst (pd_store_reg vm_Unimplemented [] 0 R1)) = true
        <-> already_spilled R1 [] = true \/ is_stack_slot R1 = true)
  /\ returned (pd_reg_size vm_Unimplemented R1) = false
  /\ returned (fst (pd_store_reg vm_Unimplemented [] 0 R1)) = false.
Proof.
  split; [reflexivity | split; [reflexivity | split]].
  - intros [Honly_if _].
    destruct (Honly_if eq_refl) as [Hduplicate | Hstack].
    + discriminate Hduplicate.
    + discriminate Hstack.
  - rewrite pd_reg_size_stops, pd_store_reg_stops. split; reflexivity.
Qed.

(** C7, amended.  The Register Spiller fails on every request, for a
    location already in the plan, for a stack slot and for a fresh
    register-resident location alike; the failure is the VM stopping at
    [Unimplemented()], never a DuplicateSpill signal, and the emitter is
    handed nothing.  Spill planning succeeds for no location: its width
    query fails as well. *)
Theorem spiller_fails_on_every_request (masm : MacroAssembler) (offset : Z)
  (reg : VMReg) :
  pd_store_reg vm_Unimplemented masm offset reg
  = (Aborted (unimplemented_at 47), masm)
  /\ failed (fst (pd_store_reg vm_Unimplemented masm offset reg)) = true
  /\ fst (pd_store_reg vm_Unimplemented masm offset reg) <> Signalled DuplicateSpill
  /\ failed (pd_reg_size vm_Unimplemented reg) = true.
Proof.
  rewrite pd_store_reg_stops, pd_reg_size_stops. simpl.
  repeat split.
  intros Hsignal. inversion Hsignal.
Qed.

(** * C10: the values of the return statements *)

(** C10.  Were the [Unimplemented()] calls of lines 42 and 37 to fall
    through to the statement after them, pd_reg_size would return -1 for every
    register: one value for all registers, negative, and so the size of no
    scratch area, since a sum of widths is not negative; and
    vmstorage_to_vmreg would return [VMRegImpl::Bad()] for every type and
    index. *)
Theorem return_values_are_sentinels
  (Unimplemented : string -> Z -> outcome unit)
  (falls_through_42 : Unimplemented this_file 42 = Returned tt)
  (falls_through_37 : Unimplemented this_file 37 = Returned tt) :
  (forall reg : VMReg,
      pd_reg_size Unimplemented reg = Returned (-1))
  /\ (forall reg reg' : VMReg,
         pd_reg_size Unimplemented reg = pd_reg_size Unimplemented reg')
  /\ (forall (reg : VMReg) (size : Z),
         pd_reg_size Unimplemented reg = Returned size ->
         size < 0 /\ ~ valid_spill_size size)
  /\ (forall type index : Z,
         vmstorage_to_vmreg Unimplemented type index = Returned VMRegImpl_Bad).
Proof.
  assert (Hsize : forall reg, pd_reg_size Unimplemented reg = Returned (-1)).
  { intros reg. unfold pd_reg_size. rewrite falls_through_42, bind_Returned. reflexivity. }
  split; [exact Hsize | split; [ | split]].
  - intros reg reg'. rewrite !Hsize. reflexivity.
  - intros reg size Hreturned. rewrite Hsize in Hreturned.
    injection Hreturned as <-.
    split; [lia | ].
    intros Hvalid. apply valid_spill_size_nonnegative in Hvalid. lia.
  - intros type index. unfold vmstorage_to_vmreg.
    rewrite falls_through_37, bind_Returned. reflexivity.
Qed.

Lemma return_values_witness :
  pd_reg_size (fun _ _ => Returned tt) R1 = Returned (-1)
  /\ vmstorage_to_vmreg (fun _ _ => Returned tt) 0 0 = Returned VMRegImpl_Bad.
Proof.
  destruct (return_values_are_sentinels (fun _ _ => Returned tt) eq_refl eq_refl)
    as (Hsize & _ & _ & Hreg).
  split.
  - apply Hsize.
  - apply Hreg.
Defined.

(** * Further properties of the six hooks *)

Lemma run_call_is_the_macro_call (Unimplemented : string -> Z -> outcome unit)
  (c : emitter_call) (masm : MacroAssembler) :
  run_call Unimplemented c masm = (Unimplemented this_file (call_line c), masm).
Proof. destruct c; reflexivity. Qed.

Lemma run_calls_cons (Unimplemented : string -> Z -> outcome unit)
  (c : emitter_call) (rest : list emitter_call) (masm : MacroAssembler) :
  run_calls Unimplemented (c :: rest) masm
  = match Unimplemented this_file (call_line c) with
    | Returned _ => run_calls Unimplemented rest masm
    | ending => (ending, masm)
    end.
Proof.
  simpl. rewrite run_call_is_the_macro_call.
  destruct (Unimplemented this_file (call_line c)); reflexivity.
Qed.

(** X1.  Were the [Unimplemented()] call of line 32 to fall through,
    parse_abi_descriptor would return the value-initialised descriptor for
    every description: no argument location, no return location, no volatile
    register.  Its [argument_locations] has one entry per parameter for the
    zero-argument signatures only. *)
Theorem parse_falls_through_to_the_empty_descriptor
  (Unimplemented : string -> Z -> outcome unit)
  (falls_through_32 : Unimplemented this_file 32 = Returned tt)
  (jabi : jobject) :
  exists d : ABIDescriptor,
    parse_abi_descriptor Unimplemented jabi = Returned d
    /\ argument_locations d = []
    /\ return_location d = None
    /\ volatile_registers d = []
    /\ (List.length (argument_locations d) = List.length (signature jabi)
        <-> signature jabi = []).
Proof.
  exists ABIDescriptor_value_initialized.
  split.
  - unfold parse_abi_descriptor.
    rewrite falls_through_32, bind_Returned. reflexivity.
  - simpl. repeat (split; [reflexivity | ]).
    split.
    + intros Hlength. destruct (signature jabi) as [ | tag tags].
      * reflexivity.
      * discriminate Hlength.
    + intros ->. reflexivity.
Qed.

Lemma parse_falls_through_witness :
  exists d : ABIDescriptor,
    parse_abi_descriptor (fun _ _ => Returned tt) scenario_abi = Returned d
    /\ argument_locations d = []
    /\ return_location d = None
    /\ volatile_registers d = []
    /\ (List.length (argument_locations d) = List.length (signature scenario_abi)
        <-> signature scenario_abi = []).
Proof.
  apply (parse_falls_through_to_the_empty_descriptor (fun _ _ => Returned tt)).
  reflexivity.
Defined.

(** X2.  Whatever the [Unimplemented()] macro does, each of the six hooks
    ends the way the macro's call on its first line ends: it returns to its
    caller exactly when that call returns, and it passes on that call's
    error or VM stop unchanged, adding no failure of its own. *)
Theorem hooks_end_as_their_macro_call_ends
  (Unimplemented : string -> Z -> outcome unit) :
  (forall jabi,
      same_ending (Unimplemented this_file 32)
                  (parse_abi_descriptor Unimplemented jabi))
  /\ (forall type index,
         same_ending (Unimplemented this_file 37)
                     (vmstorage_to_vmreg Unimplemented type index))
  /\ (forall reg,
         same_ending (Unimplemented this_file 42) (pd_reg_size Unimplemented reg))
  /\ (forall masm offset reg,
         same_ending (Unimplemented this_file 47)
                     (fst (pd_store_reg Unimplemented masm offset reg)))
  /\ (forall masm offset reg,
         same_ending (Unimplemented this_file 51)
                     (fst (pd_load_reg Unimplemented masm offset reg)))
  /\ (forall this masm tmp in_stk_bias out_stk_bias,
         same_ending (Unimplemented this_file 55)
           (fst (pd_generate Unimplemented this masm tmp in_stk_bias out_stk_bias))).
Proof.
  repeat match goal with |- _ /\ _ => split end; intros.
  - unfold parse_abi_descriptor.
    destruct (Unimplemented this_file 32); simpl; auto.
  - unfold vmstorage_to_vmreg.
    destruct (Unimplemented this_file 37); simpl; auto.
  - unfold pd_reg_size.
    destruct (Unimplemented this_file 42); simpl; auto.
  - unfold pd_store_reg; simpl.
    destruct (Unimplemented this_file 47); simpl; auto.
  - unfold pd_load_reg; simpl.
    destruct (Unimplemented this_file 51); simpl; auto.
  - unfold pd_generate; simpl.
    destruct (Unimplemented this_file 55); simpl; auto.
Qed.

(** X3.  Whatever the [Unimplemented()] macro does, no sequence of calls of
    pd_store_reg, pd_load_reg and pd_generate changes the assembler: after the
    calls, returned or not, it holds what it held before. *)
Theorem emitting_hooks_leave_the_assembler
  (Unimplemented : string -> Z -> outcome unit)
  (calls : list emitter_call) (masm : MacroAssembler) :
  snd (run_calls Unimplemented calls masm) = masm.
Proof.
  induction calls as [ | c rest IH].
  - reflexivity.
  - rewrite run_calls_cons.
    destruct (Unimplemented this_file (call_line c)); simpl.
    + exact IH.
    + reflexivity.
    + reflexivity.
Qed.

(** X4.  Were the [Unimplemented()] calls of lines 47, 51 and 55 to fall
    through, every sequence of saves, restores and shuffles would return
    normally with nothing emitted: no store, no load and no move is described
    to the emitter although each call reports success. *)
Theorem falling_through_emits_nothing
  (Unimplemented : string -> Z -> outcome unit)
  (falls_through_47 : Unimplemented this_file 47 = Returned tt)
  (falls_through_51 : Unimplemented this_file 51 = Returned tt)
  (falls_through_55 : Unimplemented this_file 55 = Returned tt)
  (calls : list emitter_call) (masm : MacroAssembler) :
  run_calls Unimplemented calls masm = (Returned tt, masm).
Proof.
  induction calls as [ | c rest IH].
  - reflexivity.
  - rewrite run_calls_cons.
    assert (Hcall : Unimplemented this_file (call_line c) = Returned tt).
    { destruct c; simpl; assumption. }
    rewrite Hcall. exact IH.
Qed.

Lemma falling_through_witness :
  run_calls (fun _ _ => Returned tt)
    [call_pd_store_reg 0 R1; call_pd_generate (swap R1 R2) R12 0 0;
     call_pd_load_reg 0 R1] []
  = (Returned tt, []).
Proof.
  apply (falling_through_emits_nothing (fun _ _ => Returned tt)).
  - reflexivity.
  - reflexivity.
  - reflexivity.
Defined.

(** X6.  With the VM-stopping macro, a sequence of calls of the emitting
    hooks returns normally exactly when it is empty; a non-empty one ends at
    its first call, with the report of that call's hook, and none of the
    later calls is made. *)
Theorem only_the_first_call_is_made (calls : list emitter_call)
  (masm : MacroAssembler) :
  (returned (fst (run_calls vm_Unimplemented calls masm)) = true <-> calls = [])
  /\ (forall c : emitter_call,
         run_calls vm_Unimplemented (c :: calls) masm
         = (Aborted (unimplemented_at (call_line c)), masm)).
Proof.
  split.
  - destruct calls as [ | c rest].
    + split; reflexivity.
    + rewrite run_calls_cons. simpl. split.
      * intros Hreturned. discriminate Hreturned.
      * intros Hempty. discriminate Hempty.
  - intros c. rewrite run_calls_cons. reflexivity.
Qed.
